(** * The Kombu RPC client of Mistral

    A shallow embedding of [mistral/engine/rpc_backend/kombu/kombu_client.py]
    (class [KombuRPCClient]) and the properties of its synchronous and
    fire-and-forget calls.

    The client talks to three collaborators: the uuid generator, the broker
    (through a pooled producer) and its response listener.  Every call the
    client makes to one of them is recorded, oldest first, in the [trace] of
    the world; the listener's call registry is a finite map in the world.
    Python control flow ([return], [raise], [try]/[finally], [try]/[except])
    is kept as completions of a small state monad. *)

From Stdlib Require Import ZArith.
From stdpp Require Import base option list strings gmap fin_maps.

Local Open Scope Z_scope.
Local Open Scope string_scope.

(** ** Python values *)

(** The values that flow through the client.  A dict with string keys is an
    association list in insertion order; an exception instance is what a
    caller can observe of it, its class and its message. *)
#[warnings="-register-all"]
Inductive pyval : Type :=
| PNone
| PBool (b : bool)
| PInt (z : Z)
| PStr (s : string)
| PDict (items : list (string * pyval))
| PExc (cls : string) (msg : string).

(** [d[key]] on an association list: the first binding of [key]. *)
Fixpoint dict_lookup (key : string) (items : list (string * pyval)) : option pyval :=
  match items with
  | [] => None
  | (k, v) :: rest => if String.eqb k key then Some v else dict_lookup key rest
  end.

(** [v == s] for a string literal [s]. *)
Definition py_eq_str (v : pyval) (s : string) : bool :=
  match v with
  | PStr s' => String.eqb s' s
  | _ => false
  end.

(** [isinstance(e, cls)] for a class without subclasses in this program. *)
Definition is_instance (e : pyval) (cls : string) : bool :=
  match e with
  | PExc c _ => String.eqb c cls
  | _ => false
  end.

(** What a caller can tell about an error it caught: its class. *)
Definition error_kind (e : pyval) : option string :=
  match e with
  | PExc c _ => Some c
  | _ => None
  end.

(** ** Broker objects *)

Record Connection : Type := mkConnection {
  conn_host : pyval;
  conn_port : pyval;
  conn_user_id : pyval;
  conn_password : pyval;
  conn_virtual_host : pyval
}.

Record Exchange : Type := mkExchange {
  ex_name : pyval;
  ex_durable : pyval;
  ex_auto_delete : pyval
}.

(** [kombu.Queue(name, exchange=, routing_key=, durable=, exclusive=,
    auto_delete=)]. *)
Record Queue : Type := mkQueue {
  q_name : string;
  q_exchange : Exchange;
  q_routing_key : string;
  q_durable : bool;
  q_exclusive : bool;
  q_auto_delete : bool
}.

(** One [producer.publish(...)]: the body and the keyword arguments the
    client passes. *)
Record Message : Type := mkMessage {
  msg_body : pyval;
  msg_exchange : pyval;
  msg_routing_key : pyval;
  msg_reply_to : string;
  msg_correlation_id : string;
  msg_serializer : string;
  msg_delivery_mode : Z
}.

(** AMQP delivery mode 2. *)
Definition PERSISTENT_DELIVERY_MODE : Z := 2.

(** A response as the listener decodes it from the reply queue. *)
Record Delivery : Type := mkDelivery {
  d_correlation_id : string;
  d_outcome : pyval
}.

(** What the broker does with a published request: the publication fails
    with an exception, or it succeeds and the given responses reach this
    client's reply queue within the timeout of the call. *)
Inductive Reaction : Type :=
| PublishFails (e : pyval)
| Published (replies : list Delivery).

(** ** Calls to collaborators *)

Inductive Event : Type :=
| EvRegisterSerialization
| EvMakeConnection (c : Connection)
| EvMakeExchange (e : Exchange)
| EvQueue (q : Queue)
| EvListener (c : Connection) (q : Queue)
| EvListenerStart
| EvLogDebug (body : pyval)
| EvAddListener (correlation_id : string)
| EvAcquireProducer (c : Connection)
| EvPublish (m : Message)
| EvReleaseProducer (c : Connection)
| EvGetResult (correlation_id : string) (timeout : pyval)
| EvRemoveListener (correlation_id : string)
| EvSuperInit (conf : gmap string pyval).

Definition is_queue (e : Event) : bool :=
  match e with EvQueue _ => true | _ => false end.

Definition is_add_listener (e : Event) : bool :=
  match e with EvAddListener _ => true | _ => false end.

Definition is_remove_listener (e : Event) : bool :=
  match e with EvRemoveListener _ => true | _ => false end.

Definition is_get_result (e : Event) : bool :=
  match e with EvGetResult _ _ => true | _ => false end.

Definition is_base_init (e : Event) : bool :=
  match e with EvSuperInit _ => true | _ => false end.

Definition is_listener_call (e : Event) : bool :=
  match e with EvListener _ _ | EvListenerStart => true | _ => false end.

(** The calls of a run other than the one to the constructor of the base
    class. *)
Definition own_calls (t : list Event) : list Event :=
  List.filter (fun e => negb (is_base_init e)) t.

(** ** The world *)

(** A pending call of the registry, with the three states of the spec's
    data model: the outcome is there once the listener has fulfilled the
    call, and a timed-out call holds nothing. *)
Inductive PendingCall : Type :=
| Waiting
| Fulfilled (outcome : pyval)
| TimedOut.

(** The part of the world the client cannot choose: the identifiers the
    uuid generator yields one after the other, whether the handshake of a
    connection fails (and with which error), and how the broker reacts to a
    published message. *)
Record Env : Type := mkEnv {
  uuid_at : nat -> string;
  handshake : Connection -> option pyval;
  broker : Message -> Reaction
}.

Record World : Type := mkWorld {
  next_uuid : nat;
  registry : gmap string PendingCall;
  trace : list Event
}.

Definition set_registry (r : gmap string PendingCall) (w : World) : World :=
  mkWorld (next_uuid w) r (trace w).

Definition emit (e : Event) (w : World) : World :=
  mkWorld (next_uuid w) (registry w) (trace w ++ [e]).

(** ** Completions and the monad *)

(** How a block of statements ends: it falls through with a value, it
    executes [return v], or it raises. *)
Inductive completion (A : Type) : Type :=
| Normal (a : A)
| Returned (v : pyval)
| Raised (e : pyval).

Arguments Normal {A} a.
Arguments Returned {A} v.
Arguments Raised {A} e.

Definition M (A : Type) : Type := World -> completion A * World.

Definition pure {A} (a : A) : M A := fun w => (Normal a, w).

Definition bind {A B} (m : M A) (k : A -> M B) : M B :=
  fun w =>
    match m w with
    | (Normal a, w1) => k a w1
    | (Returned v, w1) => (Returned v, w1)
    | (Raised e, w1) => (Raised e, w1)
    end.

Definition return_ {A} (v : pyval) : M A := fun w => (Returned v, w).

Definition throw {A} (e : pyval) : M A := fun w => (Raised e, w).

Definition call_out (e : Event) : M unit := fun w => (Normal tt, emit e w).

#[global] Instance M_ret : MRet M := @pure.
#[global] Instance M_bind : MBind M := fun A B k m => bind m k.

(** [raise v]: an exception instance is raised as it is; anything else is a
    [TypeError]. *)
Definition raise_ {A} (v : pyval) : M A :=
  match v with
  | PExc _ _ => throw v
  | _ => throw (PExc "TypeError" "exceptions must derive from BaseException")
  end.

(** [try: body finally: fin].  The final block runs however the body ended;
    the body's completion stands unless the final block itself returns or
    raises. *)
Definition try_finally {A} (body : M A) (fin : M unit) : M A :=
  fun w =>
    let (c, w1) := body w in
    match fin w1 with
    | (Normal _, w2) => (c, w2)
    | (Returned v, w2) => (Returned v, w2)
    | (Raised e, w2) => (Raised e, w2)
    end.

(** [try: body except cls: handler]. *)
Definition try_except {A} (body : M A) (cls : string) (handler : M A) : M A :=
  fun w =>
    match body w with
    | (Raised e, w1) => if is_instance e cls then handler w1 else (Raised e, w1)
    | r => r
    end.

(** A function call: [return v] inside the body is the value of the call,
    falling off the end gives [None]. *)
Definition function (body : M unit) : M pyval :=
  fun w =>
    match body w with
    | (Normal _, w1) => (Normal PNone, w1)
    | (Returned v, w1) => (Normal v, w1)
    | (Raised e, w1) => (Raised e, w1)
    end.

(** [result[key]]. *)
Definition getitem (d : pyval) (key : string) : M pyval :=
  match d with
  | PDict items =>
      match dict_lookup key items with
      | Some v => pure v
      | None => throw (PExc "KeyError" key)
      end
  | _ => throw (PExc "TypeError" "object is not subscriptable")
  end.

(** ** The client *)

(** The authentication context travels as an opaque payload: the client
    only asks it for its dict, which the context is taken to hand over. *)
Record Context : Type := mkContext {
  to_dict : pyval
}.

(** The attributes [__init__] sets on [self]. *)
Record KombuRPCClient : Type := mkClient {
  exchange : pyval;
  user_id : pyval;
  password : pyval;
  topic : pyval;
  server_id : pyval;
  host : pyval;
  port : pyval;
  virtual_host : pyval;
  durable_queue : pyval;
  auto_delete : pyval;
  _timeout : pyval;
  conn : Connection;
  queue_name : string;
  callback_queue : Queue
}.

(** [conf.get(key, default)]. *)
Definition conf_get (conf : gmap string pyval) (key : string) (dflt : pyval) : pyval :=
  default dflt (conf !! key).

Section Client.

(** The keys [kombu_base.TYPE] and [kombu_base.RESULT] of a result; their
    module is not among the sources, the client only needs them as keys. *)
Variables TYPE RESULT : string.

Variable env : Env.

(** Modelled from the spec: [utils.generate_unicode_uuid()] ([utils] is not
    among the sources) yields an identifier generated per call; it is the
    next value of the environment's generator, which then moves on. *)
Definition generate_unicode_uuid : M string :=
  fun w => (Normal (uuid_at env (next_uuid w)),
            mkWorld (S (next_uuid w)) (registry w) (trace w)).

(** *** The response listener *)

(** Modelled from the spec: the listener's handling of one delivered
    response ([kombu_listener] is not among the sources).  The correlation
    id is looked up in the registry; without a waiting entry the message is
    dropped, otherwise the pending call is marked fulfilled with the decoded
    outcome.  The listener never inserts or removes an entry. *)
Definition on_message (d : Delivery) (r : gmap string PendingCall) : gmap string PendingCall :=
  match r !! d_correlation_id d with
  | Some Waiting => <[d_correlation_id d := Fulfilled (d_outcome d)]> r
  | _ => r
  end.

(** Modelled from the spec: the listener's receive loop over the responses
    that arrive, in order of arrival. *)
Definition deliver (ds : list Delivery) (r : gmap string PendingCall) : gmap string PendingCall :=
  foldl (fun r d => on_message d r) r ds.

(** Modelled from the spec: [add_listener(correlation_id)] inserts a new
    waiting pending call. *)
Definition add_listener (correlation_id : string) : M unit :=
  fun w =>
    (Normal tt,
     set_registry (<[correlation_id := Waiting]> (registry w))
       (emit (EvAddListener correlation_id) w)).

(** Modelled from the spec: [get_result(correlation_id, timeout)] gives the
    outcome of a fulfilled call; when the timeout elapses on a call still
    waiting it fails with the queue's [Empty], the error the client catches.
    The spec does not say what an unregistered id gives; the client never
    asks for one. *)
Definition get_result (correlation_id : string) (timeout : pyval) : M pyval :=
  fun w =>
    let w1 := emit (EvGetResult correlation_id timeout) w in
    match registry w1 !! correlation_id with
    | Some (Fulfilled outcome) => (Normal outcome, w1)
    | Some Waiting =>
        (Raised (PExc "Empty" ""),
         set_registry (<[correlation_id := TimedOut]> (registry w1)) w1)
    | Some TimedOut => (Raised (PExc "Empty" ""), w1)
    | None => (Raised (PExc "KeyError" correlation_id), w1)
    end.

(** Modelled from the spec: [remove_listener(correlation_id)] deletes the
    registry entry, unconditionally and idempotently. *)
Definition remove_listener (correlation_id : string) : M unit :=
  fun w =>
    (Normal tt,
     set_registry (delete correlation_id (registry w))
       (emit (EvRemoveListener correlation_id) w)).

(** *** The broker *)

(** Modelled from the spec: [_make_connection] of the missing base class;
    the handshake may fail with a connection error. *)
Definition _make_connection (h p u pw vh : pyval) : M Connection :=
  fun w =>
    let c := mkConnection h p u pw vh in
    let w1 := emit (EvMakeConnection c) w in
    match handshake env c with
    | Some e => (Raised e, w1)
    | None => (Normal c, w1)
    end.

(** Modelled from the spec: [_make_exchange] of the missing base class
    declares the request exchange. *)
Definition _make_exchange (name durable auto_del : pyval) : M Exchange :=
  let e := mkExchange name durable auto_del in
  call_out (EvMakeExchange e);; mret e.

(** [kombu.Queue(...)]. *)
Definition kombu_Queue (name : string) (ex : Exchange) (routing_key : string)
    (durable exclusive auto_del : bool) : M Queue :=
  let q := mkQueue name ex routing_key durable exclusive auto_del in
  call_out (EvQueue q);; mret q.

(** Modelled from the spec: a new listener starts with an empty registry. *)
Definition KombuRPCListener (c : Connection) (q : Queue) : M unit :=
  fun w => (Normal tt, set_registry ∅ (emit (EvListener c q) w)).

(** [producer.publish(...)]: the broker's reaction decides whether the
    publication fails; the responses it causes are handled by the listener,
    which runs beside the caller, as soon as they can arrive. *)
Definition publish (m : Message) : M unit :=
  fun w =>
    let w1 := emit (EvPublish m) w in
    match broker env m with
    | PublishFails e => (Raised e, w1)
    | Published replies => (Normal tt, set_registry (deliver replies (registry w1)) w1)
    end.

(** [with kombu.producers[conn].acquire(block=True) as producer: body]:
    the producer goes back to the pool however the body ends. *)
Definition with_producer {A} (c : Connection) (body : M A) : M A :=
  call_out (EvAcquireProducer c);;
  try_finally body (call_out (EvReleaseProducer c)).

(** *** [KombuRPCClient] *)

(** The constructor of the base class [RPCClient], which is not among the
    sources, is called first and is handed the whole configuration;
    [_register_mistral_serialization] is a call to the missing [Base].  The
    record returned holds the attributes this constructor sets itself. *)
Definition __init__ (conf : gmap string pyval) : M KombuRPCClient :=
  call_out (EvSuperInit conf);;
  call_out EvRegisterSerialization;;
  let exchange := conf_get conf "exchange" (PStr "") in
  let user_id := conf_get conf "user_id" (PStr "guest") in
  let password := conf_get conf "password" (PStr "guest") in
  let topic := conf_get conf "topic" (PStr "mistral") in
  let server_id := conf_get conf "server_id" (PStr "") in
  let host := conf_get conf "host" (PStr "localhost") in
  let port := conf_get conf "port" (PInt 5672) in
  let virtual_host := conf_get conf "virtual_host" (PStr "/") in
  let durable_queue := conf_get conf "durable_queues" (PBool false) in
  let auto_delete := conf_get conf "auto_delete" (PBool false) in
  let _timeout := conf_get conf "timeout" (PInt 60) in
  conn ← _make_connection host port user_id password virtual_host;
  exchange_obj ← _make_exchange exchange durable_queue auto_delete;
  queue_name ← generate_unicode_uuid;
  callback_queue ← kombu_Queue queue_name exchange_obj queue_name false true true;
  KombuRPCListener conn callback_queue;;
  call_out EvListenerStart;;
  mret (mkClient exchange user_id password topic server_id host port
          virtual_host durable_queue auto_delete _timeout conn queue_name
          callback_queue).

Definition _wait_for_result (self : KombuRPCClient) (correlation_id : string) : M pyval :=
  function
    (try_except
       (r ← get_result correlation_id (_timeout self); return_ r)
       "Empty"
       (throw (PExc "MistralException" "RPC Request timeout"))).

Definition request_body (ctx : Context) (method : string)
    (kwargs : list (string * pyval)) (async : bool) : pyval :=
  PDict [("rpc_ctx", to_dict ctx);
         ("rpc_method", PStr method);
         ("arguments", PDict kwargs);
         ("async", PBool async)].

Definition _call (self : KombuRPCClient) (ctx : Context) (method : string)
    (target : pyval) (async : bool) (kwargs : list (string * pyval)) : M pyval :=
  function
    (correlation_id ← generate_unicode_uuid;
     let body := request_body ctx method kwargs async in
     call_out (EvLogDebug body);;
     res_object ←
       try_finally
         ((if negb async then add_listener correlation_id else mret tt);;
          with_producer (conn self)
            (publish (mkMessage body (exchange self) (topic self)
                        (queue_name self) correlation_id
                        "mistral_serialization" 2));;
          (if async then return_ PNone else mret tt);;
          result ← _wait_for_result self correlation_id;
          res_type ← getitem result TYPE;
          res_object ← getitem result RESULT;
          (if py_eq_str res_type "error" then raise_ res_object else mret tt);;
          mret res_object)
         (if negb async then remove_listener correlation_id else mret tt);
     return_ res_object).

(** [kwargs] stands for the keyword arguments Python can bind in the call
    of [_call]: a keyword named like one of [_call]'s own parameters is
    refused by the argument binding, before the body of [_call] runs. *)
Definition sync_call (self : KombuRPCClient) (ctx : Context) (method : string)
    (target : pyval) (kwargs : list (string * pyval)) : M pyval :=
  _call self ctx method target false kwargs.

Definition async_call (self : KombuRPCClient) (ctx : Context) (method : string)
    (target : pyval) (kwargs : list (string * pyval)) : M pyval :=
  _call self ctx method target true kwargs.

End Client.

(** ** Observing a run *)

(** The calls made between two worlds of one run. *)
Definition events_since (w w' : World) : list Event :=
  drop (length (trace w)) (trace w').

(** The messages handed to [producer.publish], in order. *)
Definition published (t : list Event) : list Message :=
  omap (fun e => match e with EvPublish m => Some m | _ => None end) t.

(** The message [_call] publishes for a given correlation id. *)
Definition request (self : KombuRPCClient) (ctx : Context) (method : string)
    (kwargs : list (string * pyval)) (async : bool) (correlation_id : string) : Message :=
  mkMessage (request_body ctx method kwargs async) (exchange self) (topic self)
    (queue_name self) correlation_id "mistral_serialization" 2.

(** The outcome of the first of the given responses that answers a
    correlation id, when there is one. *)
Definition first_response (correlation_id : string) (ds : list Delivery) : option pyval :=
  d_outcome <$> List.find (fun d => String.eqb (d_correlation_id d) correlation_id) ds.

(** ** Configurations and callers *)

(** The configuration keys [__init__] reads. *)
Definition CONF_KEYS : list string :=
  ["exchange"; "user_id"; "password"; "topic"; "server_id"; "host"; "port";
   "virtual_host"; "durable_queues"; "auto_delete"; "timeout"].

(** The second arguments of the [conf.get] calls of [__init__]. *)
Definition DEFAULTS : gmap string pyval :=
  list_to_map
    [("exchange", PStr ""); ("user_id", PStr "guest"); ("password", PStr "guest");
     ("topic", PStr "mistral"); ("server_id", PStr ""); ("host", PStr "localhost");
     ("port", PInt 5672); ("virtual_host", PStr "/");
     ("durable_queues", PBool false); ("auto_delete", PBool false);
     ("timeout", PInt 60)].

(** One use of the client by a caller: [sync_call] or [async_call] with its
    arguments. *)
Record Call : Type := mkCall {
  call_async : bool;
  call_ctx : Context;
  call_method : string;
  call_target : pyval;
  call_kwargs : list (string * pyval)
}.

Definition run_call (TYPE RESULT : string) (env : Env) (self : KombuRPCClient)
    (c : Call) : M pyval :=
  if call_async c
  then async_call TYPE RESULT env self (call_ctx c) (call_method c)
         (call_target c) (call_kwargs c)
  else sync_call TYPE RESULT env self (call_ctx c) (call_method c)
         (call_target c) (call_kwargs c).

(** A caller that makes the given calls one after the other on one client,
    going on after a call that raised, and keeps how each one ended. *)
Fixpoint run_calls (TYPE RESULT : string) (env : Env) (self : KombuRPCClient)
    (cs : list Call) (w : World) : list (completion pyval) * World :=
  match cs with
  | [] => ([], w)
  | c :: rest =>
      let (r, w1) := run_call TYPE RESULT env self c w in
      let (rs, w2) := run_calls TYPE RESULT env self rest w1 in
      (r :: rs, w2)
  end.

(** ** Sample inputs *)

Module Sample.

(** A generator that never repeats itself. *)
Fixpoint uuid (n : nat) : string :=
  match n with
  | O => "uuid"
  | S k => uuid k +:+ "'"
  end.

(** No dispatcher is running: requests are accepted, nothing answers. *)
Definition silent : Message -> Reaction := fun _ => Published [].

(** A dispatcher that answers every request with the given outcome. *)
Definition answering (outcome : pyval) : Message -> Reaction :=
  fun m => Published [mkDelivery (msg_correlation_id m) outcome].

(** A broker that refuses every publication. *)
Definition refusing (e : pyval) : Message -> Reaction := fun _ => PublishFails e.

Definition env (b : Message -> Reaction) : Env := mkEnv uuid (fun _ => None) b.

Definition conf : gmap string pyval :=
  {[ "exchange" := PStr "openstack"; "topic" := PStr "mistral_engine";
     "timeout" := PInt 1 ]}.

Definition w0 : World := mkWorld 0 ∅ [].

Definition the_exchange : Exchange :=
  mkExchange (PStr "openstack") (PBool false) (PBool false).

Definition the_connection : Connection :=
  mkConnection (PStr "localhost") (PInt 5672) (PStr "guest") (PStr "guest") (PStr "/").

Definition the_queue : Queue := mkQueue "uuid" the_exchange "uuid" false true true.

(** The client [__init__] builds from [conf] in [w0]. *)
Definition client : KombuRPCClient :=
  mkClient (PStr "openstack") (PStr "guest") (PStr "guest") (PStr "mistral_engine")
    (PStr "") (PStr "localhost") (PInt 5672) (PStr "/") (PBool false) (PBool false)
    (PInt 1) the_connection "uuid" the_queue.

(** The world after construction. *)
Definition w1 : World :=
  mkWorld 1 ∅
    [EvSuperInit conf; EvRegisterSerialization; EvMakeConnection the_connection;
     EvMakeExchange the_exchange; EvQueue the_queue;
     EvListener the_connection the_queue; EvListenerStart].

Definition ctx : Context := mkContext (PDict [("user", PStr "admin")]).

Definition add_1_2 : list (string * pyval) := [("a", PInt 1); ("b", PInt 2)].

Definition result_3 : pyval := PDict [("type", PStr "result"); ("result", PInt 3)].

Definition value_error : pyval :=
  PDict [("type", PStr "error"); ("result", PExc "ValueError" "bad arg")].

Definition remote_timeout : pyval :=
  PDict [("type", PStr "error");
         ("result", PExc "MistralException" "RPC Request timeout")].

Definition sync (b : Message -> Reaction) : completion pyval * World :=
  sync_call "type" "result" (env b) client ctx "add" PNone add_1_2 w1.

Definition async (b : Message -> Reaction) : completion pyval * World :=
  async_call "type" "result" (env b) client ctx "add" PNone add_1_2 w1.

(** A broker nobody can connect to. *)
Definition unreachable : Env :=
  mkEnv uuid (fun _ => Some (PExc "ConnectionError" "connection refused")) silent.

(** A configuration with a misspelt key. *)
Definition conf_typo : gmap string pyval := <["durable_queue" := PBool true]> conf.

(** A result whose type is [None]. *)
Definition untyped_result : pyval := PDict [("type", PNone); ("result", PInt 3)].

(** A response without the result key. *)
Definition no_result_key : pyval := PDict [("type", PStr "result")].

(** An error response whose payload is a description, not an exception. *)
Definition described_error : pyval :=
  PDict [("type", PStr "error");
         ("result", PDict [("type", PStr "ValueError"); ("message", PStr "bad arg")])].

(** A response whose type is spelt with a capital. *)
Definition capitalised_error : pyval :=
  PDict [("type", PStr "Error"); ("result", PExc "ValueError" "bad arg")].

(** The world after construction, with another caller's call pending. *)
Definition busy : World := mkWorld 1 {[ "other" := Waiting ]} (trace w1).

(** A dispatcher that also answers the other caller. *)
Definition answering_both (outcome : pyval) : Message -> Reaction :=
  fun m => Published [mkDelivery "other" (PInt 30);
                      mkDelivery (msg_correlation_id m) outcome].

Definition three_calls : list Call :=
  [mkCall false ctx "add" PNone add_1_2;
   mkCall true ctx "notify" (PStr "executor") [];
   mkCall false ctx "add" PNone add_1_2].

End Sample.

(** ** Running the sample *)

Example init_sample :
  __init__ (Sample.env Sample.silent) Sample.conf Sample.w0 =
    (Normal Sample.client, Sample.w1).
Proof. vm_compute. reflexivity. Qed.

Example sync_value_return :
  fst (Sample.sync (Sample.answering Sample.result_3)) = Normal (PInt 3).
Proof. vm_compute. reflexivity. Qed.

Example sync_remote_error :
  fst (Sample.sync (Sample.answering Sample.value_error)) =
    Raised (PExc "ValueError" "bad arg").
Proof. vm_compute. reflexivity. Qed.

Example sync_timeout :
  fst (Sample.sync Sample.silent) =
    Raised (PExc "MistralException" "RPC Request timeout").
Proof. vm_compute. reflexivity. Qed.

Example sync_publish_failure :
  fst (Sample.sync (Sample.refusing (PExc "OperationalError" "connection reset"))) =
    Raised (PExc "OperationalError" "connection reset").
Proof. vm_compute. reflexivity. Qed.

Example sync_events :
  events_since Sample.w1 (snd (Sample.sync (Sample.answering Sample.result_3))) =
    [EvLogDebug (request_body Sample.ctx "add" Sample.add_1_2 false);
     EvAddListener "uuid'";
     EvAcquireProducer Sample.the_connection;
     EvPublish (request Sample.client Sample.ctx "add" Sample.add_1_2 false "uuid'");
     EvReleaseProducer Sample.the_connection;
     EvGetResult "uuid'" (PInt 1);
     EvRemoveListener "uuid'"].
Proof. vm_compute. reflexivity. Qed.

Example async_returns_none :
  fst (Sample.async (Sample.answering Sample.result_3)) = Normal PNone.
Proof. vm_compute. reflexivity. Qed.

(** ** Symbolic execution *)

Ltac exec :=
  unfold sync_call, async_call, _call, _wait_for_result, with_producer, publish,
    add_listener, remove_listener, get_result, generate_unicode_uuid, call_out,
    function, try_finally, try_except, getitem, raise_, throw, return_,
    mbind, mret, M_bind, M_ret, bind, pure, emit, set_registry;
  cbn [fst snd registry trace next_uuid negb].

Ltac exec_more :=
  cbn [fst snd registry trace next_uuid negb is_instance String.eqb Ascii.eqb
       Bool.eqb].

(** Closes a goal [∃ c waited r, run = (c, world)] once the run is evaluated. *)
Ltac shape_done b :=
  eexists _, b, _; rewrite <- ?app_assoc; reflexivity.

Lemma events_since_app w n r t :
  events_since w (mkWorld n r (trace w ++ t)) = t.
Proof. unfold events_since. cbn [trace]. apply drop_app_length. Qed.

(** ** The listener *)

Lemma on_message_dom d (r : gmap string PendingCall) :
  dom (on_message d r) = dom r.
Proof.
  unfold on_message.
  destruct (r !! d_correlation_id d) as [[| |]|] eqn:E; try reflexivity.
  apply dom_insert_lookup_L. rewrite E. eauto.
Qed.

(** The listener neither inserts nor removes registry entries. *)
Lemma deliver_dom ds (r : gmap string PendingCall) :
  dom (deliver ds r) = dom r.
Proof.
  revert r. induction ds as [|d ds IH]; intros r; [reflexivity|].
  cbn. unfold deliver in IH. rewrite IH. apply on_message_dom.
Qed.

(** A response without a registry entry is dropped. *)
Lemma on_message_unknown d (r : gmap string PendingCall) :
  r !! d_correlation_id d = None -> on_message d r = r.
Proof. intros E. unfold on_message. rewrite E. reflexivity. Qed.

(** Once registered, the slot of a call is there when its responses come. *)
Lemma add_listener_registers cid w :
  registry (snd (add_listener cid w)) !! cid = Some Waiting.
Proof. cbn. apply lookup_insert_eq. Qed.

Lemma on_message_lookup d (r : gmap string PendingCall) cid :
  on_message d r !! cid =
    match r !! cid with
    | Some Waiting =>
        if String.eqb (d_correlation_id d) cid
        then Some (Fulfilled (d_outcome d)) else Some Waiting
    | o => o
    end.
Proof.
  unfold on_message.
  destruct (String.eqb_spec (d_correlation_id d) cid) as [->|Hne].
  - destruct (r !! cid) as [[| |]|] eqn:E; rewrite ?lookup_insert_eq; done.
  - destruct (r !! d_correlation_id d) as [[| |]|];
      rewrite ?lookup_insert_ne by done; by destruct (r !! cid) as [[| |]|].
Qed.

(** A waiting call is fulfilled by the first response that answers it and
    by nothing else. *)
Lemma deliver_lookup ds (r : gmap string PendingCall) cid :
  deliver ds r !! cid =
    match r !! cid with
    | Some Waiting => Some (from_option Fulfilled Waiting (first_response cid ds))
    | o => o
    end.
Proof.
  revert r. induction ds as [|d ds IH]; intros r.
  - cbn. by destruct (r !! cid) as [[| |]|].
  - change (deliver (d :: ds) r) with (deliver ds (on_message d r)).
    rewrite IH, on_message_lookup. unfold first_response. cbn [List.find].
    destruct (r !! cid) as [[| |]|]; try done.
    by destruct (String.eqb (d_correlation_id d) cid).
Qed.

Lemma deliver_registered ds (r : gmap string PendingCall) cid :
  deliver ds (<[cid := Waiting]> r) !! cid =
    Some (from_option Fulfilled Waiting (first_response cid ds)).
Proof. by rewrite deliver_lookup, lookup_insert_eq. Qed.

(** ** The shape of a call *)

(** Every synchronous call makes the same calls in the same order; the only
    variation is whether it got as far as waiting. *)
Lemma sync_call_shape TYPE RESULT env self ctx method target kwargs w :
  let cid := uuid_at env (next_uuid w) in
  ∃ c (waited : bool) r,
    sync_call TYPE RESULT env self ctx method target kwargs w =
      (c, mkWorld (S (next_uuid w)) (delete cid r)
            (trace w ++
             [EvLogDebug (request_body ctx method kwargs false);
              EvAddListener cid;
              EvAcquireProducer (conn self);
              EvPublish (request self ctx method kwargs false cid);
              EvReleaseProducer (conn self)] ++
             (if waited then [EvGetResult cid (_timeout self)] else []) ++
             [EvRemoveListener cid])).
Proof.
  intros cid. unfold request. exec. fold cid.
  destruct (broker env _) as [e|replies]; exec_more; [shape_done false|].
  destruct (deliver replies _ !! cid) as [[|outcome|]|]; exec_more;
    try shape_done true.
  destruct outcome as [| | | |items|]; exec_more; try shape_done true.
  destruct (dict_lookup TYPE items) as [res_type|]; exec_more;
    try shape_done true.
  destruct (dict_lookup RESULT items) as [res_object|]; exec_more;
    try shape_done true.
  destruct (py_eq_str res_type "error"); exec_more; try shape_done true.
  destruct res_object; exec_more; shape_done true.
Qed.

(** A fire-and-forget call: what it does and how it ends. *)
Lemma async_call_run TYPE RESULT env self ctx method target kwargs w :
  let cid := uuid_at env (next_uuid w) in
  let m := request self ctx method kwargs true cid in
  async_call TYPE RESULT env self ctx method target kwargs w =
    (match broker env m with
     | PublishFails e => Raised e
     | Published _ => Normal PNone
     end,
     mkWorld (S (next_uuid w))
       (match broker env m with
        | PublishFails _ => registry w
        | Published replies => deliver replies (registry w)
        end)
       (trace w ++
        [EvLogDebug (request_body ctx method kwargs true);
         EvAcquireProducer (conn self);
         EvPublish m;
         EvReleaseProducer (conn self)])).
Proof.
  intros cid m. unfold m, request. exec. fold cid.
  destruct (broker env _) as [e|replies]; exec_more;
    rewrite <- ?app_assoc; reflexivity.
Qed.

(** Construction either fails at the handshake or yields the client whose
    attributes come from the configuration. *)
Lemma init_inv env conf w self w' :
  __init__ env conf w = (Normal self, w') ->
  let c := mkConnection (conf_get conf "host" (PStr "localhost"))
             (conf_get conf "port" (PInt 5672))
             (conf_get conf "user_id" (PStr "guest"))
             (conf_get conf "password" (PStr "guest"))
             (conf_get conf "virtual_host" (PStr "/")) in
  let ex := mkExchange (conf_get conf "exchange" (PStr ""))
              (conf_get conf "durable_queues" (PBool false))
              (conf_get conf "auto_delete" (PBool false)) in
  let name := uuid_at env (next_uuid w) in
  let q := mkQueue name ex name false true true in
  self = mkClient (conf_get conf "exchange" (PStr ""))
           (conf_get conf "user_id" (PStr "guest"))
           (conf_get conf "password" (PStr "guest"))
           (conf_get conf "topic" (PStr "mistral"))
           (conf_get conf "server_id" (PStr ""))
           (conf_get conf "host" (PStr "localhost"))
           (conf_get conf "port" (PInt 5672))
           (conf_get conf "virtual_host" (PStr "/"))
           (conf_get conf "durable_queues" (PBool false))
           (conf_get conf "auto_delete" (PBool false))
           (conf_get conf "timeout" (PInt 60))
           c name q
  ∧ w' = mkWorld (S (next_uuid w)) ∅
           (trace w ++
            [EvSuperInit conf; EvRegisterSerialization; EvMakeConnection c;
             EvMakeExchange ex; EvQueue q; EvListener c q; EvListenerStart]).
Proof.
  unfold __init__, _make_connection, _make_exchange, kombu_Queue,
    KombuRPCListener.
  exec. destruct (handshake env _); [discriminate|].
  intros H. injection H as <- <-. rewrite <- !app_assoc. split; reflexivity.
Qed.

(** ** Registration and cleanup of a synchronous call *)

(** C1. A synchronous call registers its correlation id with the listener
    strictly before it publishes its request: the calls it makes split around
    its single publication, [add_listener] for the id of the published
    message is among the earlier ones, and no [remove_listener] for that id
    is, so the slot is there when a response can first arrive. *)
Theorem sync_call_registers_before_publishing
    TYPE RESULT env self ctx method target kwargs w :
  let cid := uuid_at env (next_uuid w) in
  let w' := snd (sync_call TYPE RESULT env self ctx method target kwargs w) in
  ∃ pre m post,
    events_since w w' = (pre ++ EvPublish m :: post)%list
    ∧ msg_correlation_id m = cid
    ∧ (EvAddListener cid ∈ pre)
    ∧ (EvRemoveListener cid ∉ pre)
    ∧ published pre = []
    ∧ published post = [].
Proof.
  intros cid w'. subst w'.
  destruct (sync_call_shape TYPE RESULT env self ctx method target kwargs w)
    as (c & waited & r & ->).
  fold cid. cbn [snd]. rewrite events_since_app.
  exists [EvLogDebug (request_body ctx method kwargs false);
          EvAddListener cid; EvAcquireProducer (conn self)].
  eexists _, _. split; [reflexivity|].
  split; [reflexivity|].
  split; [rewrite !elem_of_cons; auto|].
  split.
  - intros H. repeat (apply elem_of_cons in H as [H|H]; [discriminate H|]).
    by apply elem_of_nil in H.
  - split; [reflexivity|]. by destruct waited.
Qed.

(** C2. A synchronous call calls [remove_listener] exactly once, for its own
    correlation id and as the last thing it does, however it ends (value
    returned, remote error raised, timeout raised, publication failed); the
    registry then holds no entry for that id, and no response the listener
    still receives brings one back. *)
Theorem sync_call_removes_listener_exactly_once
    TYPE RESULT env self ctx method target kwargs w :
  let cid := uuid_at env (next_uuid w) in
  let w' := snd (sync_call TYPE RESULT env self ctx method target kwargs w) in
  List.filter is_remove_listener (events_since w w') = [EvRemoveListener cid]
  ∧ last (events_since w w') = Some (EvRemoveListener cid)
  ∧ registry w' !! cid = None
  ∧ ∀ late, deliver late (registry w') !! cid = None.
Proof.
  intros cid w'. subst w'.
  destruct (sync_call_shape TYPE RESULT env self ctx method target kwargs w)
    as (c & waited & r & ->).
  fold cid. cbn [snd registry]. rewrite events_since_app.
  split; [by destruct waited|].
  split; [by destruct waited|].
  split; [apply lookup_delete_eq|].
  intros late. by rewrite deliver_lookup, lookup_delete_eq.
Qed.

(** ** How a synchronous call ends *)

(** No response within the timeout. *)
Lemma sync_call_timeout TYPE RESULT env self ctx method target kwargs w replies :
  let cid := uuid_at env (next_uuid w) in
  broker env (request self ctx method kwargs false cid) = Published replies ->
  first_response cid replies = None ->
  fst (sync_call TYPE RESULT env self ctx method target kwargs w) =
    Raised (PExc "MistralException" "RPC Request timeout").
Proof.
  intros cid Hb Hr. unfold request in Hb. exec. fold cid. rewrite Hb. exec_more.
  rewrite deliver_registered, Hr. reflexivity.
Qed.

(** A response with both keys arrived in time. *)
Lemma sync_call_fulfilled
    TYPE RESULT env self ctx method target kwargs w replies items res_type res_object :
  let cid := uuid_at env (next_uuid w) in
  broker env (request self ctx method kwargs false cid) = Published replies ->
  first_response cid replies = Some (PDict items) ->
  dict_lookup TYPE items = Some res_type ->
  dict_lookup RESULT items = Some res_object ->
  fst (sync_call TYPE RESULT env self ctx method target kwargs w) =
    if py_eq_str res_type "error"
    then match res_object with
         | PExc _ _ => Raised res_object
         | _ => Raised (PExc "TypeError" "exceptions must derive from BaseException")
         end
    else Normal res_object.
Proof.
  intros cid Hb Hr Ht Ho. unfold request in Hb. exec. fold cid. rewrite Hb.
  exec_more. rewrite deliver_registered, Hr. cbn [from_option]. exec_more.
  rewrite Ht. exec_more. rewrite Ho. exec_more.
  destruct (py_eq_str res_type "error"); [|reflexivity].
  by destruct res_object.
Qed.

(** C3. When the response that fulfils a synchronous call has the type
    ["error"] and its payload is an exception object, the call raises that
    very object; when the type is anything else, another string or no
    string at all, the call returns the payload of the response. *)
Theorem sync_call_raises_remote_error_or_returns_payload
    TYPE RESULT env self ctx method target kwargs w replies items res_type payload :
  let cid := uuid_at env (next_uuid w) in
  broker env (request self ctx method kwargs false cid) = Published replies ->
  first_response cid replies = Some (PDict items) ->
  dict_lookup TYPE items = Some res_type ->
  dict_lookup RESULT items = Some payload ->
  let outcome := fst (sync_call TYPE RESULT env self ctx method target kwargs w) in
  (res_type = PStr "error" ->
   ∀ cls msg, payload = PExc cls msg -> outcome = Raised payload)
  ∧ (res_type ≠ PStr "error" -> outcome = Normal payload).
Proof.
  intros cid Hb Hr Ht Ho outcome. subst outcome.
  rewrite (sync_call_fulfilled TYPE RESULT env self ctx method target kwargs w
             replies items res_type payload Hb Hr Ht Ho).
  split.
  - intros -> cls msg ->. reflexivity.
  - intros Hne. destruct res_type as [| | |s| |]; try reflexivity.
    cbn [py_eq_str].
    destruct (String.eqb_spec s "error") as [->|_]; [by destruct Hne|reflexivity].
Qed.

Lemma sync_call_raises_remote_error_or_returns_payload_witness :
  fst (Sample.sync (Sample.answering Sample.value_error)) =
    Raised (PExc "ValueError" "bad arg")
  ∧ fst (Sample.sync (Sample.answering Sample.untyped_result)) = Normal (PInt 3).
Proof.
  split.
  - refine (proj1 (sync_call_raises_remote_error_or_returns_payload
                     "type" "result"
                     (Sample.env (Sample.answering Sample.value_error))
                     Sample.client Sample.ctx "add" PNone Sample.add_1_2 Sample.w1
                     [mkDelivery "uuid'" Sample.value_error]
                     [("type", PStr "error"); ("result", PExc "ValueError" "bad arg")]
                     (PStr "error") (PExc "ValueError" "bad arg")
                     _ _ _ _) _ "ValueError" "bad arg" _);
      reflexivity.
  - refine (proj2 (sync_call_raises_remote_error_or_returns_payload
                     "type" "result"
                     (Sample.env (Sample.answering Sample.untyped_result))
                     Sample.client Sample.ctx "add" PNone Sample.add_1_2 Sample.w1
                     [mkDelivery "uuid'" Sample.untyped_result]
                     [("type", PNone); ("result", PInt 3)]
                     PNone (PInt 3)
                     _ _ _ _) _);
      try reflexivity.
    intros H. discriminate H.
Defined.

(** C3, as first stated, fails: a response of type ["error"] whose payload
    is a description of the error, not an exception object, does not make
    the call raise that payload; the call ends in a [TypeError]. *)
Lemma sync_call_does_not_raise_a_described_error :
  first_response "uuid'" [mkDelivery "uuid'" Sample.described_error] =
    Some Sample.described_error
  ∧ Sample.described_error =
      PDict [("type", PStr "error");
             ("result", PDict [("type", PStr "ValueError");
                               ("message", PStr "bad arg")])]
  ∧ fst (Sample.sync (Sample.answering Sample.described_error)) ≠
      Raised (PDict [("type", PStr "ValueError"); ("message", PStr "bad arg")])
  ∧ error_kind (match fst (Sample.sync (Sample.answering Sample.described_error)) with
                | Raised e => e
                | _ => PNone
                end) = Some "TypeError".
Proof.
  split; [reflexivity|]. split; [reflexivity|]. split.
  - vm_compute. intros H. discriminate H.
  - vm_compute. reflexivity.
Qed.

(** C4. The error a synchronous call raises when its wait elapses is a plain
    [MistralException]; a remote dispatcher reporting an error of that class
    and message makes the call end in the very same way, after the very same
    calls, so a caller cannot tell the timeout from a remote-reported
    error. *)
Theorem timeout_error_equals_a_remote_error :
  let timed_out := Sample.sync Sample.silent in
  let remote := Sample.sync (Sample.answering Sample.remote_timeout) in
  fst timed_out = Raised (PExc "MistralException" "RPC Request timeout")
  ∧ error_kind (PExc "MistralException" "RPC Request timeout") =
      Some "MistralException"
  ∧ fst remote = fst timed_out
  ∧ events_since Sample.w1 (snd remote) = events_since Sample.w1 (snd timed_out).
Proof. repeat split; vm_compute; reflexivity. Qed.

(** A publication that fails: the whole run. *)
Lemma sync_call_publish_fails TYPE RESULT env self ctx method target kwargs w e :
  let cid := uuid_at env (next_uuid w) in
  broker env (request self ctx method kwargs false cid) = PublishFails e ->
  sync_call TYPE RESULT env self ctx method target kwargs w =
    (Raised e,
     mkWorld (S (next_uuid w)) (delete cid (<[cid := Waiting]> (registry w)))
       (trace w ++
        [EvLogDebug (request_body ctx method kwargs false);
         EvAddListener cid;
         EvAcquireProducer (conn self);
         EvPublish (request self ctx method kwargs false cid);
         EvReleaseProducer (conn self);
         EvRemoveListener cid])).
Proof.
  intros cid Hb. unfold request in *. exec. fold cid. rewrite Hb. exec_more.
  rewrite <- !app_assoc. reflexivity.
Qed.

(** ** Fire-and-forget calls *)

(** C5. A fire-and-forget call logs, takes a producer, publishes and gives
    the producer back, and that is all: it never calls [add_listener],
    [remove_listener] or [get_result], the registry keeps the entries it
    had, and the call returns [None] as soon as the publication is done
    (a failed publication is raised instead). *)
Theorem async_call_fire_and_forget
    TYPE RESULT env self ctx method target kwargs w :
  let cid := uuid_at env (next_uuid w) in
  let m := request self ctx method kwargs true cid in
  let run := async_call TYPE RESULT env self ctx method target kwargs w in
  events_since w (snd run) =
    [EvLogDebug (request_body ctx method kwargs true);
     EvAcquireProducer (conn self); EvPublish m; EvReleaseProducer (conn self)]
  ∧ List.filter is_add_listener (events_since w (snd run)) = []
  ∧ List.filter is_remove_listener (events_since w (snd run)) = []
  ∧ List.filter is_get_result (events_since w (snd run)) = []
  ∧ dom (registry (snd run)) = dom (registry w)
  ∧ fst run = match broker env m with
              | PublishFails e => Raised e
              | Published _ => Normal PNone
              end.
Proof.
  intros cid m run. subst run.
  rewrite (async_call_run TYPE RESULT env self ctx method target kwargs w).
  fold cid m. cbn [fst snd registry]. rewrite events_since_app.
  repeat split.
  destruct (broker env m) as [e|replies]; [reflexivity|apply deliver_dom].
Qed.

(** ** What is published *)

(** C6. The body of the one message a call publishes is the request
    envelope: the dict of the context, the method name, the keyword
    arguments, and the flag, false for [sync_call] and true for
    [async_call]. *)
Theorem published_body_is_the_request_envelope
    TYPE RESULT env self ctx method target kwargs w :
  map msg_body
    (published
       (events_since w
          (snd (sync_call TYPE RESULT env self ctx method target kwargs w)))) =
    [PDict [("rpc_ctx", to_dict ctx); ("rpc_method", PStr method);
            ("arguments", PDict kwargs); ("async", PBool false)]]
  ∧ map msg_body
      (published
         (events_since w
            (snd (async_call TYPE RESULT env self ctx method target kwargs w)))) =
      [PDict [("rpc_ctx", to_dict ctx); ("rpc_method", PStr method);
              ("arguments", PDict kwargs); ("async", PBool true)]].
Proof.
  split.
  - destruct (sync_call_shape TYPE RESULT env self ctx method target kwargs w)
      as (c & waited & r & ->).
    cbn [snd]. rewrite events_since_app. by destruct waited.
  - rewrite (async_call_run TYPE RESULT env self ctx method target kwargs w).
    cbn [snd]. rewrite events_since_app. reflexivity.
Qed.

(** C7. A client built from a configuration publishes each request, once,
    to the configured exchange with the configured topic as routing key;
    [reply_to] is the name of the client's own queue, [correlation_id] is the
    value the generator yields for this call, and the delivery mode is
    persistent. *)
Theorem request_is_published_as_configured
    TYPE RESULT env conf w0 w1 self ctx method target kwargs (async : bool) w :
  __init__ env conf w0 = (Normal self, w1) ->
  let call := if async then async_call else sync_call in
  let w' := snd (call TYPE RESULT env self ctx method target kwargs w) in
  ∃ m,
    published (events_since w w') = [m]
    ∧ msg_exchange m = conf_get conf "exchange" (PStr "")
    ∧ msg_routing_key m = conf_get conf "topic" (PStr "mistral")
    ∧ msg_reply_to m = q_name (callback_queue self)
    ∧ msg_correlation_id m = uuid_at env (next_uuid w)
    ∧ next_uuid w' = S (next_uuid w)
    ∧ msg_delivery_mode m = PERSISTENT_DELIVERY_MODE.
Proof.
  intros Hinit call w'. subst call w'.
  destruct (init_inv env conf w0 self w1 Hinit) as [Hself _].
  assert (He : exchange self = conf_get conf "exchange" (PStr ""))
    by (rewrite Hself; reflexivity).
  assert (Ht : topic self = conf_get conf "topic" (PStr "mistral"))
    by (rewrite Hself; reflexivity).
  assert (Hq : queue_name self = q_name (callback_queue self))
    by (rewrite Hself; reflexivity).
  clear Hself.
  exists (request self ctx method kwargs async (uuid_at env (next_uuid w))).
  destruct async.
  - rewrite (async_call_run TYPE RESULT env self ctx method target kwargs w).
    cbn [snd next_uuid]. rewrite events_since_app. repeat split; assumption.
  - destruct (sync_call_shape TYPE RESULT env self ctx method target kwargs w)
      as (c & waited & r & ->).
    cbn [snd next_uuid]. rewrite events_since_app.
    split; [by destruct waited|]. repeat split; assumption.
Qed.

Lemma request_is_published_as_configured_witness :
  ∃ m,
    published (events_since Sample.w1 (snd (Sample.sync Sample.silent))) = [m]
    ∧ msg_exchange m = PStr "openstack"
    ∧ msg_routing_key m = PStr "mistral_engine"
    ∧ msg_reply_to m = "uuid"
    ∧ msg_correlation_id m = "uuid'"
    ∧ next_uuid (snd (Sample.sync Sample.silent)) = 2%nat
    ∧ msg_delivery_mode m = 2%Z.
Proof.
  apply (request_is_published_as_configured "type" "result"
           (Sample.env Sample.silent) Sample.conf Sample.w0 Sample.w1
           Sample.client Sample.ctx "add" PNone Sample.add_1_2 false Sample.w1).
  vm_compute. reflexivity.
Defined.

(** ** Construction *)

(** C8. Constructing a client creates exactly one queue, the client's reply
    queue: not durable, exclusive, auto-deleted, named by a value drawn from
    the generator at construction, and bound to the request exchange under
    its own name as routing key.  The generator moves on, so with a
    generator that never repeats itself no other id it yields equals the
    queue's name. *)
Theorem client_creates_one_private_reply_queue env conf w self w' :
  __init__ env conf w = (Normal self, w') ->
  let q := callback_queue self in
  List.filter is_queue (events_since w w') = [EvQueue q]
  ∧ q_durable q = false
  ∧ q_exclusive q = true
  ∧ q_auto_delete q = true
  ∧ q_name q = uuid_at env (next_uuid w)
  ∧ next_uuid w' = S (next_uuid w)
  ∧ ((∀ i j, uuid_at env i = uuid_at env j -> i = j) ->
     ∀ n, n ≠ next_uuid w -> uuid_at env n ≠ q_name q)
  ∧ queue_name self = q_name q
  ∧ q_routing_key q = q_name q
  ∧ ex_name (q_exchange q) = exchange self
  ∧ (EvMakeExchange (q_exchange q) ∈ events_since w w').
Proof.
  intros Hinit q. subst q.
  destruct (init_inv env conf w self w' Hinit) as [-> ->].
  cbn [callback_queue q_durable q_exclusive q_auto_delete q_name q_routing_key
       q_exchange ex_name exchange queue_name next_uuid].
  rewrite events_since_app.
  repeat split.
  - intros Hinj n Hn E. apply Hn, Hinj, E.
  - rewrite !elem_of_cons. auto.
Qed.

Lemma client_creates_one_private_reply_queue_witness :
  let q := Sample.the_queue in
  List.filter is_queue (events_since Sample.w0 Sample.w1) = [EvQueue q]
  ∧ q_durable q = false
  ∧ q_exclusive q = true
  ∧ q_auto_delete q = true
  ∧ q_name q = "uuid"
  ∧ next_uuid Sample.w1 = 1%nat
  ∧ ((∀ i j, Sample.uuid i = Sample.uuid j -> i = j) ->
     ∀ n, n ≠ 0%nat -> Sample.uuid n ≠ q_name q)
  ∧ queue_name Sample.client = q_name q
  ∧ q_routing_key q = q_name q
  ∧ ex_name (q_exchange q) = exchange Sample.client
  ∧ (EvMakeExchange (q_exchange q) ∈ events_since Sample.w0 Sample.w1).
Proof.
  apply (client_creates_one_private_reply_queue (Sample.env Sample.silent)
           Sample.conf Sample.w0 Sample.client Sample.w1).
  vm_compute. reflexivity.
Defined.

(** ** Failures of the publication *)

(** C9. When the broker refuses the publication, the exception it raised
    comes out of [sync_call] and of [async_call] as it is, after a single
    publication attempt; a synchronous call has by then made its
    [remove_listener] call, last of all, and its id is not in the registry. *)
Theorem publish_failure_propagates
    TYPE RESULT env self ctx method target kwargs (async : bool) w e :
  let cid := uuid_at env (next_uuid w) in
  let call := if async then async_call else sync_call in
  let run := call TYPE RESULT env self ctx method target kwargs w in
  broker env (request self ctx method kwargs async cid) = PublishFails e ->
  fst run = Raised e
  ∧ published (events_since w (snd run)) = [request self ctx method kwargs async cid]
  ∧ (if async then List.filter is_remove_listener (events_since w (snd run)) = []
     else last (events_since w (snd run)) = Some (EvRemoveListener cid)
          ∧ registry (snd run) !! cid = None).
Proof.
  intros cid call run Hb. subst call run. destruct async.
  - rewrite (async_call_run TYPE RESULT env self ctx method target kwargs w).
    fold cid. rewrite Hb. cbn [fst snd]. rewrite events_since_app.
    repeat split.
  - rewrite (sync_call_publish_fails TYPE RESULT env self ctx method target
               kwargs w e Hb).
    fold cid. cbn [fst snd registry]. rewrite events_since_app.
    repeat split. apply lookup_delete_eq.
Qed.

Lemma publish_failure_propagates_witness :
  let run := Sample.sync (Sample.refusing (PExc "OperationalError" "reset")) in
  fst run = Raised (PExc "OperationalError" "reset")
  ∧ published (events_since Sample.w1 (snd run)) =
      [request Sample.client Sample.ctx "add" Sample.add_1_2 false "uuid'"]
  ∧ last (events_since Sample.w1 (snd run)) = Some (EvRemoveListener "uuid'")
  ∧ registry (snd run) !! "uuid'" = None.
Proof.
  apply (publish_failure_propagates "type" "result"
           (Sample.env (Sample.refusing (PExc "OperationalError" "reset")))
           Sample.client Sample.ctx "add" PNone Sample.add_1_2 false Sample.w1
           (PExc "OperationalError" "reset")).
  reflexivity.
Defined.

(** ** The target of a call *)

(** C10. The [target] argument plays no part: two calls that differ only in
    it end the same way and leave the same world, so the same message under
    the same exchange, routing key and properties. *)
Theorem target_is_ignored
    TYPE RESULT env self ctx method target target' kwargs w :
  sync_call TYPE RESULT env self ctx method target kwargs w =
    sync_call TYPE RESULT env self ctx method target' kwargs w
  ∧ async_call TYPE RESULT env self ctx method target kwargs w =
      async_call TYPE RESULT env self ctx method target' kwargs w.
Proof. split; reflexivity. Qed.

(** * Further properties of the client *)

(** ** The constructor and its configuration *)

Lemma conf_get_insert_ne (conf : gmap string pyval) k v key dflt :
  k ≠ key -> conf_get (<[k := v]> conf) key dflt = conf_get conf key dflt.
Proof. intros Hne. unfold conf_get. by rewrite lookup_insert_ne. Qed.

Lemma conf_get_over_defaults (conf : gmap string pyval) key dflt :
  DEFAULTS !! key = Some dflt ->
  conf_get (conf ∪ DEFAULTS) key dflt = conf_get conf key dflt.
Proof.
  intros Hd. unfold conf_get. rewrite lookup_union, Hd.
  by destruct (conf !! key).
Qed.

Lemma defaults_keys key dflt : DEFAULTS !! key = Some dflt -> key ∈ CONF_KEYS.
Proof.
  intros Hd. unfold DEFAULTS in Hd. apply elem_of_list_to_map_2 in Hd.
  unfold CONF_KEYS.
  repeat (apply elem_of_cons in Hd as [Hd|Hd];
          [injection Hd as -> _; rewrite !elem_of_cons; tauto|]).
  by apply elem_of_nil in Hd.
Qed.

(** Two configurations that answer the eleven [conf.get] calls alike give
    the same construction, but for the configuration handed to the base
    class. *)
Lemma init_depends_on_what_it_reads env (conf conf' : gmap string pyval) w :
  (∀ key dflt, DEFAULTS !! key = Some dflt ->
               conf_get conf' key dflt = conf_get conf key dflt) ->
  let run := __init__ env conf w in
  let run' := __init__ env conf' w in
  fst run' = fst run
  ∧ own_calls (events_since w (snd run')) = own_calls (events_since w (snd run))
  ∧ next_uuid (snd run') = next_uuid (snd run)
  ∧ registry (snd run') = registry (snd run).
Proof.
  intros H run run'. subst run run'.
  unfold __init__, _make_connection, _make_exchange, kombu_Queue,
    KombuRPCListener.
  exec.
  rewrite (H "exchange" (PStr "") ltac:(vm_compute; reflexivity)).
  rewrite (H "user_id" (PStr "guest") ltac:(vm_compute; reflexivity)).
  rewrite (H "password" (PStr "guest") ltac:(vm_compute; reflexivity)).
  rewrite (H "topic" (PStr "mistral") ltac:(vm_compute; reflexivity)).
  rewrite (H "server_id" (PStr "") ltac:(vm_compute; reflexivity)).
  rewrite (H "host" (PStr "localhost") ltac:(vm_compute; reflexivity)).
  rewrite (H "port" (PInt 5672) ltac:(vm_compute; reflexivity)).
  rewrite (H "virtual_host" (PStr "/") ltac:(vm_compute; reflexivity)).
  rewrite (H "durable_queues" (PBool false) ltac:(vm_compute; reflexivity)).
  rewrite (H "auto_delete" (PBool false) ltac:(vm_compute; reflexivity)).
  rewrite (H "timeout" (PInt 60) ltac:(vm_compute; reflexivity)).
  destruct (handshake env _); exec_more;
    rewrite <- !app_assoc, !events_since_app; repeat split.
Qed.

(** X1. But for handing the configuration to the constructor of the base
    class, construction does not depend on a key outside those of its
    [conf.get] calls: with such a key added or changed, a misspelt one for
    instance, it ends alike, returns a client with the same attributes,
    makes the same other calls and leaves the generator and the registry
    alike. *)
Theorem init_ignores_unread_keys env (conf : gmap string pyval) k v w :
  k ∉ CONF_KEYS ->
  let run := __init__ env conf w in
  let run' := __init__ env (<[k := v]> conf) w in
  fst run' = fst run
  ∧ own_calls (events_since w (snd run')) = own_calls (events_since w (snd run))
  ∧ next_uuid (snd run') = next_uuid (snd run)
  ∧ registry (snd run') = registry (snd run).
Proof.
  intros Hk. apply init_depends_on_what_it_reads.
  intros key dflt Hd. apply conf_get_insert_ne.
  intros ->. apply Hk. by eapply defaults_keys.
Qed.

Lemma init_ignores_unread_keys_witness :
  let run := __init__ (Sample.env Sample.silent) Sample.conf Sample.w0 in
  let run' := __init__ (Sample.env Sample.silent) Sample.conf_typo Sample.w0 in
  fst run' = fst run
  ∧ own_calls (events_since Sample.w0 (snd run')) =
      own_calls (events_since Sample.w0 (snd run))
  ∧ next_uuid (snd run') = next_uuid (snd run)
  ∧ registry (snd run') = registry (snd run).
Proof.
  apply (init_ignores_unread_keys (Sample.env Sample.silent) Sample.conf
           "durable_queue" (PBool true) Sample.w0).
  unfold CONF_KEYS. intros H.
  repeat (apply elem_of_cons in H as [H|H]; [discriminate H|]).
  by apply elem_of_nil in H.
Defined.

(** X2. But for the configuration handed to the constructor of the base
    class, construction from a configuration is construction from that
    configuration laid over the defaults: a missing key stands for
    exchange [""], guest/guest, topic ["mistral"], server id [""],
    localhost:5672, virtual host ["/"], no durable queues, no auto-delete,
    and a timeout of 60, and a key that is there wins over its default. *)
Theorem init_lays_configuration_over_defaults env (conf : gmap string pyval) w :
  let run := __init__ env conf w in
  let run' := __init__ env (conf ∪ DEFAULTS) w in
  fst run' = fst run
  ∧ own_calls (events_since w (snd run')) = own_calls (events_since w (snd run))
  ∧ next_uuid (snd run') = next_uuid (snd run)
  ∧ registry (snd run') = registry (snd run).
Proof.
  apply init_depends_on_what_it_reads.
  intros key dflt Hd. by apply conf_get_over_defaults.
Qed.

(** X3. When making the connection fails, the constructor raises that very
    error after the call to the base class, registering the serializer and
    trying to connect, and has done nothing else: no exchange is declared,
    no queue is created, no listener exists, no identifier was drawn. *)
Theorem init_stops_at_a_failed_connection env (conf : gmap string pyval) w e :
  let c := mkConnection (conf_get conf "host" (PStr "localhost"))
             (conf_get conf "port" (PInt 5672))
             (conf_get conf "user_id" (PStr "guest"))
             (conf_get conf "password" (PStr "guest"))
             (conf_get conf "virtual_host" (PStr "/")) in
  handshake env c = Some e ->
  let run := __init__ env conf w in
  fst run = Raised e
  ∧ events_since w (snd run) =
      [EvSuperInit conf; EvRegisterSerialization; EvMakeConnection c]
  ∧ next_uuid (snd run) = next_uuid w
  ∧ registry (snd run) = registry w.
Proof.
  intros c Hh run. subst run c.
  unfold __init__, _make_connection. exec. rewrite Hh. exec_more.
  rewrite <- !app_assoc, events_since_app. repeat split.
Qed.

Lemma init_stops_at_a_failed_connection_witness :
  let run := __init__ Sample.unreachable Sample.conf Sample.w0 in
  fst run = Raised (PExc "ConnectionError" "connection refused")
  ∧ events_since Sample.w0 (snd run) =
      [EvSuperInit Sample.conf; EvRegisterSerialization;
       EvMakeConnection Sample.the_connection]
  ∧ next_uuid (snd run) = 0%nat
  ∧ registry (snd run) = ∅.
Proof.
  apply (init_stops_at_a_failed_connection Sample.unreachable Sample.conf
           Sample.w0 (PExc "ConnectionError" "connection refused")).
  reflexivity.
Defined.

(** X4. A constructor that returns has made these calls, in this order: the
    constructor of the base class with the whole configuration, the
    registration of the serializer, the connection with the host, port,
    credentials and virtual host it keeps, the exchange with the name and
    the durable and auto-delete flags it keeps, the callback queue, the
    listener on that same connection and queue, and the start of the
    listener.  The listener is created once and started once, and its start
    is the last call of all. *)
Theorem init_wires_the_listener env (conf : gmap string pyval) w self w' :
  __init__ env conf w = (Normal self, w') ->
  [EvSuperInit conf;
   EvRegisterSerialization;
   EvMakeConnection (conn self);
   EvMakeExchange (q_exchange (callback_queue self));
   EvQueue (callback_queue self);
   EvListener (conn self) (callback_queue self);
   EvListenerStart] `sublist_of` events_since w w'
  ∧ List.filter is_listener_call (events_since w w') =
      [EvListener (conn self) (callback_queue self); EvListenerStart]
  ∧ last (events_since w w') = Some EvListenerStart
  ∧ conn self = mkConnection (host self) (port self) (user_id self)
                  (password self) (virtual_host self)
  ∧ q_exchange (callback_queue self) =
      mkExchange (exchange self) (durable_queue self) (auto_delete self).
Proof.
  intros Hinit. destruct (init_inv env conf w self w' Hinit) as [-> ->].
  rewrite events_since_app. split; [reflexivity|]. repeat split.
Qed.

Lemma init_wires_the_listener_witness :
  [EvSuperInit Sample.conf;
   EvRegisterSerialization;
   EvMakeConnection Sample.the_connection;
   EvMakeExchange Sample.the_exchange;
   EvQueue Sample.the_queue;
   EvListener Sample.the_connection Sample.the_queue;
   EvListenerStart] `sublist_of` events_since Sample.w0 Sample.w1
  ∧ List.filter is_listener_call (events_since Sample.w0 Sample.w1) =
      [EvListener Sample.the_connection Sample.the_queue; EvListenerStart]
  ∧ last (events_since Sample.w0 Sample.w1) = Some EvListenerStart
  ∧ conn Sample.client =
      mkConnection (PStr "localhost") (PInt 5672) (PStr "guest") (PStr "guest")
        (PStr "/")
  ∧ q_exchange (callback_queue Sample.client) =
      mkExchange (PStr "openstack") (PBool false) (PBool false).
Proof.
  apply (init_wires_the_listener (Sample.env Sample.silent) Sample.conf
           Sample.w0 Sample.client Sample.w1).
  vm_compute. reflexivity.
Defined.

(** ** The whole run of a synchronous call *)

(** The world a synchronous call leaves, whatever the response was. *)
Lemma sync_call_world TYPE RESULT env self ctx method target kwargs w :
  let cid := uuid_at env (next_uuid w) in
  let m := request self ctx method kwargs false cid in
  snd (sync_call TYPE RESULT env self ctx method target kwargs w) =
    mkWorld (S (next_uuid w))
      (delete cid
         (match broker env m with
          | PublishFails _ => registry w
          | Published replies => deliver replies (<[cid := Waiting]> (registry w))
          end))
      (trace w ++
       [EvLogDebug (request_body ctx method kwargs false);
        EvAddListener cid;
        EvAcquireProducer (conn self);
        EvPublish m;
        EvReleaseProducer (conn self)] ++
       match broker env m with
       | PublishFails _ => []
       | Published _ => [EvGetResult cid (_timeout self)]
       end ++
       [EvRemoveListener cid]).
Proof.
  intros cid m. subst m. unfold request. exec. fold cid.
  destruct (broker env _) as [e|replies]; exec_more.
  { rewrite <- !app_assoc, delete_insert_eq. reflexivity. }
  rewrite deliver_registered.
  destruct (first_response cid replies) as [outcome|]; cbn [from_option];
    exec_more.
  2: { rewrite <- !app_assoc, delete_insert_eq. reflexivity. }
  destruct outcome as [| | | |items|]; exec_more;
    try (rewrite <- !app_assoc; reflexivity).
  destruct (dict_lookup TYPE items) as [res_type|]; exec_more;
    try (rewrite <- !app_assoc; reflexivity).
  destruct (dict_lookup RESULT items) as [res_object|]; exec_more;
    try (rewrite <- !app_assoc; reflexivity).
  destruct (py_eq_str res_type "error"); exec_more;
    try (rewrite <- !app_assoc; reflexivity).
  destruct res_object; exec_more; rewrite <- !app_assoc; reflexivity.
Qed.

(** X5. The calls a synchronous call makes, in order: it logs the request,
    registers its id, takes a producer of the client's connection,
    publishes and gives the producer back; then, only when the publication
    succeeded, it waits once for its id with the client's timeout, the
    producer no longer held; last it removes its id. *)
Theorem sync_call_makes_its_calls_in_order
    TYPE RESULT env self ctx method target kwargs w :
  let cid := uuid_at env (next_uuid w) in
  let m := request self ctx method kwargs false cid in
  events_since w (snd (sync_call TYPE RESULT env self ctx method target kwargs w)) =
    ([EvLogDebug (request_body ctx method kwargs false);
      EvAddListener cid;
      EvAcquireProducer (conn self);
      EvPublish m;
      EvReleaseProducer (conn self)] ++
     match broker env m with
     | PublishFails _ => []
     | Published _ => [EvGetResult cid (_timeout self)]
     end ++
     [EvRemoveListener cid])%list.
Proof.
  intros cid m.
  rewrite (sync_call_world TYPE RESULT env self ctx method target kwargs w).
  apply events_since_app.
Qed.

(** ** What a synchronous call makes of a response *)

(** How a synchronous call ends, as a function of what the broker did. *)
Lemma sync_call_outcome TYPE RESULT env self ctx method target kwargs w :
  let cid := uuid_at env (next_uuid w) in
  fst (sync_call TYPE RESULT env self ctx method target kwargs w) =
    match broker env (request self ctx method kwargs false cid) with
    | PublishFails e => Raised e
    | Published replies =>
        match first_response cid replies with
        | None => Raised (PExc "MistralException" "RPC Request timeout")
        | Some (PDict items) =>
            match dict_lookup TYPE items with
            | None => Raised (PExc "KeyError" TYPE)
            | Some res_type =>
                match dict_lookup RESULT items with
                | None => Raised (PExc "KeyError" RESULT)
                | Some res_object =>
                    if py_eq_str res_type "error"
                    then match res_object with
                         | PExc _ _ => Raised res_object
                         | _ => Raised (PExc "TypeError"
                                          "exceptions must derive from BaseException")
                         end
                    else Normal res_object
                end
            end
        | Some _ => Raised (PExc "TypeError" "object is not subscriptable")
        end
    end.
Proof.
  intros cid. unfold request. exec. fold cid.
  destruct (broker env _) as [e|replies]; exec_more; [reflexivity|].
  rewrite deliver_registered.
  destruct (first_response cid replies) as [outcome|]; cbn [from_option];
    exec_more; [|reflexivity].
  destruct outcome as [| | | |items|]; exec_more; try reflexivity.
  destruct (dict_lookup TYPE items) as [res_type|]; exec_more; [|reflexivity].
  destruct (dict_lookup RESULT items) as [res_object|]; exec_more; [|reflexivity].
  destruct (py_eq_str res_type "error"); exec_more; [|reflexivity].
  by destruct res_object.
Qed.

(** X6. A response dict that lacks the type key or the result key makes the
    synchronous call raise [KeyError] for the first of the two that is
    missing, the type being read first; a response of a successful kind
    without a result is thus an error, not a [None] result. *)
Theorem sync_call_raises_key_error_on_a_missing_key
    TYPE RESULT env self ctx method target kwargs w replies items :
  let cid := uuid_at env (next_uuid w) in
  broker env (request self ctx method kwargs false cid) = Published replies ->
  first_response cid replies = Some (PDict items) ->
  dict_lookup TYPE items = None ∨ dict_lookup RESULT items = None ->
  fst (sync_call TYPE RESULT env self ctx method target kwargs w) =
    Raised (PExc "KeyError"
              match dict_lookup TYPE items with
              | None => TYPE
              | Some _ => RESULT
              end).
Proof.
  intros cid Hb Hr Hmiss.
  rewrite (sync_call_outcome TYPE RESULT env self ctx method target kwargs w).
  fold cid. rewrite Hb, Hr.
  destruct (dict_lookup TYPE items) as [res_type|]; [|reflexivity].
  destruct Hmiss as [Hmiss|Hmiss]; [discriminate Hmiss|]. by rewrite Hmiss.
Qed.

Lemma sync_call_raises_key_error_on_a_missing_key_witness :
  fst (Sample.sync (Sample.answering Sample.no_result_key)) =
    Raised (PExc "KeyError" "result").
Proof.
  apply (sync_call_raises_key_error_on_a_missing_key "type" "result"
           (Sample.env (Sample.answering Sample.no_result_key)) Sample.client
           Sample.ctx "add" PNone Sample.add_1_2 Sample.w1
           [mkDelivery "uuid'" Sample.no_result_key] [("type", PStr "result")]).
  - reflexivity.
  - reflexivity.
  - right. reflexivity.
Defined.

(** X7. A response of type ["error"] whose payload is not an exception
    object cannot be raised: the synchronous call ends in a [TypeError], and
    the payload is neither raised nor returned. *)
Theorem sync_call_raises_type_error_for_a_payload_it_cannot_raise
    TYPE RESULT env self ctx method target kwargs w replies items res_object :
  let cid := uuid_at env (next_uuid w) in
  broker env (request self ctx method kwargs false cid) = Published replies ->
  first_response cid replies = Some (PDict items) ->
  dict_lookup TYPE items = Some (PStr "error") ->
  dict_lookup RESULT items = Some res_object ->
  error_kind res_object = None ->
  let outcome := fst (sync_call TYPE RESULT env self ctx method target kwargs w) in
  (∃ msg, outcome = Raised (PExc "TypeError" msg))
  ∧ outcome ≠ Raised res_object
  ∧ outcome ≠ Normal res_object.
Proof.
  intros cid Hb Hr Ht Ho Hk outcome. subst outcome.
  rewrite (sync_call_outcome TYPE RESULT env self ctx method target kwargs w).
  fold cid. rewrite Hb, Hr, Ht, Ho. cbn [py_eq_str String.eqb Ascii.eqb Bool.eqb].
  destruct res_object; try discriminate Hk; by repeat split; eauto.
Qed.

Lemma sync_call_raises_type_error_for_a_payload_it_cannot_raise_witness :
  let outcome := fst (Sample.sync (Sample.answering Sample.described_error)) in
  (∃ msg, outcome = Raised (PExc "TypeError" msg))
  ∧ outcome ≠ Raised (PDict [("type", PStr "ValueError"); ("message", PStr "bad arg")])
  ∧ outcome ≠ Normal (PDict [("type", PStr "ValueError"); ("message", PStr "bad arg")]).
Proof.
  apply (sync_call_raises_type_error_for_a_payload_it_cannot_raise "type" "result"
           (Sample.env (Sample.answering Sample.described_error)) Sample.client
           Sample.ctx "add" PNone Sample.add_1_2 Sample.w1
           [mkDelivery "uuid'" Sample.described_error]
           [("type", PStr "error");
            ("result", PDict [("type", PStr "ValueError"); ("message", PStr "bad arg")])]
           (PDict [("type", PStr "ValueError"); ("message", PStr "bad arg")])).
  - reflexivity.
  - reflexivity.
  - reflexivity.
  - reflexivity.
  - reflexivity.
Defined.

(** X8. A response that is not a dict cannot be indexed: the synchronous
    call raises a [TypeError] instead of returning it. *)
Theorem sync_call_raises_type_error_on_a_response_that_is_no_dict
    TYPE RESULT env self ctx method target kwargs w replies outcome :
  let cid := uuid_at env (next_uuid w) in
  broker env (request self ctx method kwargs false cid) = Published replies ->
  first_response cid replies = Some outcome ->
  (∀ items, outcome ≠ PDict items) ->
  ∃ msg,
    fst (sync_call TYPE RESULT env self ctx method target kwargs w) =
      Raised (PExc "TypeError" msg).
Proof.
  intros cid Hb Hr Hnd.
  rewrite (sync_call_outcome TYPE RESULT env self ctx method target kwargs w).
  fold cid. rewrite Hb, Hr.
  destruct outcome as [| | | |items|]; eauto.
  by destruct (Hnd items).
Qed.

Lemma sync_call_raises_type_error_on_a_response_that_is_no_dict_witness :
  ∃ msg, fst (Sample.sync (Sample.answering PNone)) = Raised (PExc "TypeError" msg).
Proof.
  apply (sync_call_raises_type_error_on_a_response_that_is_no_dict "type" "result"
           (Sample.env (Sample.answering PNone)) Sample.client
           Sample.ctx "add" PNone Sample.add_1_2 Sample.w1
           [mkDelivery "uuid'" PNone] PNone).
  - reflexivity.
  - reflexivity.
  - intros items H. discriminate H.
Defined.

(** X9. Only the exact string ["error"] as type makes a response an error:
    with any other type, a string spelt differently or no string at all,
    the payload is returned as the value of the call, also when it is an
    exception object. *)
Theorem sync_call_returns_the_payload_unless_the_type_is_error
    TYPE RESULT env self ctx method target kwargs w replies items res_type res_object :
  let cid := uuid_at env (next_uuid w) in
  broker env (request self ctx method kwargs false cid) = Published replies ->
  first_response cid replies = Some (PDict items) ->
  dict_lookup TYPE items = Some res_type ->
  dict_lookup RESULT items = Some res_object ->
  res_type ≠ PStr "error" ->
  fst (sync_call TYPE RESULT env self ctx method target kwargs w) = Normal res_object.
Proof.
  intros cid Hb Hr Ht Ho Hne.
  rewrite (sync_call_outcome TYPE RESULT env self ctx method target kwargs w).
  fold cid. rewrite Hb, Hr, Ht, Ho.
  destruct res_type as [| | |s| |]; try reflexivity.
  cbn [py_eq_str]. destruct (String.eqb_spec s "error") as [->|_]; [|reflexivity].
  by destruct Hne.
Qed.

Lemma sync_call_returns_the_payload_unless_the_type_is_error_witness :
  fst (Sample.sync (Sample.answering Sample.capitalised_error)) =
    Normal (PExc "ValueError" "bad arg").
Proof.
  apply (sync_call_returns_the_payload_unless_the_type_is_error "type" "result"
           (Sample.env (Sample.answering Sample.capitalised_error)) Sample.client
           Sample.ctx "add" PNone Sample.add_1_2 Sample.w1
           [mkDelivery "uuid'" Sample.capitalised_error]
           [("type", PStr "Error"); ("result", PExc "ValueError" "bad arg")]
           (PStr "Error") (PExc "ValueError" "bad arg")).
  - reflexivity.
  - reflexivity.
  - reflexivity.
  - reflexivity.
  - intros H. discriminate H.
Defined.

(** ** Other callers' pending calls *)

(** X10. A synchronous call adds and removes its own registry entry and no
    other: under any other correlation id the registry holds afterwards
    what the listener alone made of it with the responses that arrived. *)
Theorem sync_call_leaves_other_pending_calls_to_the_listener
    TYPE RESULT env self ctx method target kwargs w k :
  let cid := uuid_at env (next_uuid w) in
  k ≠ cid ->
  registry (snd (sync_call TYPE RESULT env self ctx method target kwargs w)) !! k =
    match broker env (request self ctx method kwargs false cid) with
    | PublishFails _ => registry w !! k
    | Published replies => deliver replies (registry w) !! k
    end.
Proof.
  intros cid Hk.
  rewrite (sync_call_world TYPE RESULT env self ctx method target kwargs w).
  fold cid. cbn [registry]. rewrite lookup_delete_ne by done.
  destruct (broker env _) as [e|replies]; [reflexivity|].
  by rewrite !deliver_lookup, lookup_insert_ne.
Qed.

Lemma sync_call_leaves_other_pending_calls_to_the_listener_witness :
  registry
    (snd (sync_call "type" "result"
            (Sample.env (Sample.answering_both Sample.result_3)) Sample.client
            Sample.ctx "add" PNone Sample.add_1_2 Sample.busy)) !! "other" =
    Some (Fulfilled (PInt 30)).
Proof.
  rewrite (sync_call_leaves_other_pending_calls_to_the_listener "type" "result"
             (Sample.env (Sample.answering_both Sample.result_3)) Sample.client
             Sample.ctx "add" PNone Sample.add_1_2 Sample.busy "other").
  - vm_compute. reflexivity.
  - intros H. discriminate H.
Defined.



(** ** Calls made one after the other *)

Lemma published_app (t1 t2 : list Event) :
  published (t1 ++ t2) = (published t1 ++ published t2)%list.
Proof. apply omap_app. Qed.

(** One call of a caller: one message, one identifier, no entry left. *)
Lemma run_call_step TYPE RESULT env self c w :
  let w' := snd (run_call TYPE RESULT env self c w) in
  ∃ evs,
    trace w' = (trace w ++ evs)%list
    ∧ published evs =
        [request self (call_ctx c) (call_method c) (call_kwargs c) (call_async c)
           (uuid_at env (next_uuid w))]
    ∧ next_uuid w' = S (next_uuid w)
    ∧ dom (registry w') ⊆ dom (registry w).
Proof.
  intros w'. subst w'. unfold run_call. destruct (call_async c).
  - rewrite async_call_run. cbn [snd trace next_uuid registry].
    eexists. split; [reflexivity|]. split; [reflexivity|]. split; [reflexivity|].
    destruct (broker env _); [done|]. by rewrite deliver_dom.
  - rewrite sync_call_world. cbn [snd trace next_uuid registry].
    eexists. split; [reflexivity|].
    split; [by destruct (broker env _)|]. split; [reflexivity|].
    rewrite dom_delete_L. intros x Hx.
    apply elem_of_difference in Hx as [Hx Hne].
    destruct (broker env _); [exact Hx|].
    rewrite deliver_dom, dom_insert_L in Hx.
    apply elem_of_union in Hx as [Hx|Hx]; [by destruct Hne|exact Hx].
Qed.

Lemma run_calls_steps TYPE RESULT env self cs w :
  let run := run_calls TYPE RESULT env self cs w in
  ∃ evs,
    trace (snd run) = (trace w ++ evs)%list
    ∧ published evs =
        imap (fun i c =>
                request self (call_ctx c) (call_method c) (call_kwargs c)
                  (call_async c) (uuid_at env (next_uuid w + i)))
          cs
    ∧ next_uuid (snd run) = (next_uuid w + length cs)%nat
    ∧ dom (registry (snd run)) ⊆ dom (registry w)
    ∧ length (fst run) = length cs.
Proof.
  revert w. induction cs as [|c cs IH]; intros w run; subst run.
  - exists []. cbn. rewrite app_nil_r, Nat.add_0_r. done.
  - cbn [run_calls].
    destruct (run_call_step TYPE RESULT env self c w)
      as (evs1 & Ht1 & Hp1 & Hn1 & Hd1).
    destruct (run_call TYPE RESULT env self c w) as [r w1]. cbn [snd] in *.
    destruct (IH w1) as (evs2 & Ht2 & Hp2 & Hn2 & Hd2 & Hl2).
    destruct (run_calls TYPE RESULT env self cs w1) as [rs w2]. cbn [fst snd] in *.
    exists (evs1 ++ evs2)%list.
    split; [by rewrite Ht2, Ht1, app_assoc|].
    split.
    { rewrite published_app, Hp1, Hp2, imap_cons, Hn1, Nat.add_0_r.
      cbn [app]. f_equal. apply imap_ext. intros i x _. cbn.
      by rewrite Nat.add_succ_r. }
    split; [rewrite Hn2, Hn1; cbn; lia|].
    split; [by etrans|]. cbn. by rewrite Hl2.
Qed.

(** X12. A caller that makes calls one after the other, synchronous or not
    and however each ends, gets one message published per call, in the
    order of the calls; the message of a call is its own request, and the
    correlation ids are the successive values of the generator. *)
Theorem successive_calls_publish_their_requests_in_order
    TYPE RESULT env self cs w :
  let run := run_calls TYPE RESULT env self cs w in
  published (events_since w (snd run)) =
    imap (fun i c =>
            request self (call_ctx c) (call_method c) (call_kwargs c)
              (call_async c) (uuid_at env (next_uuid w + i)))
      cs
  ∧ map msg_correlation_id (published (events_since w (snd run))) =
      map (uuid_at env) (seq (next_uuid w) (length cs))
  ∧ length (fst run) = length cs.
Proof.
  intros run.
  destruct (run_calls_steps TYPE RESULT env self cs w)
    as (evs & Ht & Hp & _ & _ & Hl).
  fold run in Ht, Hl.
  assert (He : events_since w (snd run) = evs).
  { unfold events_since. rewrite Ht. apply drop_app_length. }
  rewrite He, Hp. split; [reflexivity|]. split; [|exact Hl].
  change (map msg_correlation_id) with (fmap (M := list) msg_correlation_id).
  rewrite fmap_imap.
  apply (imap_seq cs (uuid_at env) (next_uuid w)).
Qed.

(** X13. However many calls a caller makes and however they end, none
    leaves a registry entry behind: afterwards the registry has no
    correlation id it did not have before. *)
Theorem successive_calls_leave_no_registry_entry
    TYPE RESULT env self cs w :
  dom (registry (snd (run_calls TYPE RESULT env self cs w))) ⊆ dom (registry w).
Proof.
  destruct (run_calls_steps TYPE RESULT env self cs w)
    as (evs & _ & _ & _ & Hd & _).
  exact Hd.
Qed.

(** X14. A client that was just constructed and then used for any number
    of calls has an empty registry again; every request it published names
    the queue created at construction as [reply_to], and the correlation
    ids are the generator's values that follow the queue's name. *)
Theorem constructed_client_ends_with_an_empty_registry
    TYPE RESULT env (conf : gmap string pyval) w self w' cs :
  __init__ env conf w = (Normal self, w') ->
  let run := run_calls TYPE RESULT env self cs w' in
  registry (snd run) = ∅
  ∧ Forall (fun m => msg_reply_to m = uuid_at env (next_uuid w))
      (published (events_since w' (snd run)))
  ∧ map msg_correlation_id (published (events_since w' (snd run))) =
      map (uuid_at env) (seq (S (next_uuid w)) (length cs)).
Proof.
  intros Hinit run.
  destruct (init_inv env conf w self w' Hinit) as [Hself Hw'].
  assert (Hq : queue_name self = uuid_at env (next_uuid w))
    by (rewrite Hself; reflexivity).
  assert (Hr : registry w' = ∅) by (rewrite Hw'; reflexivity).
  assert (Hn : next_uuid w' = S (next_uuid w)) by (rewrite Hw'; reflexivity).
  clear Hself Hw'.
  destruct (run_calls_steps TYPE RESULT env self cs w')
    as (evs & Ht & Hp & _ & Hd & _).
  fold run in Ht, Hd. rewrite Hr in Hd. rewrite Hn in Hp.
  assert (He : events_since w' (snd run) = evs).
  { unfold events_since. rewrite Ht. apply drop_app_length. }
  rewrite He, Hp. split.
  { apply dom_empty_inv_L. apply (anti_symm (⊆)); [|apply empty_subseteq].
    by rewrite dom_empty_L in Hd. }
  split.
  - apply Forall_forall. intros m Hm.
    apply elem_of_lookup_imap in Hm as (i & c & -> & _). exact Hq.
  - change (map msg_correlation_id) with (fmap (M := list) msg_correlation_id).
    rewrite fmap_imap.
    apply (imap_seq cs (uuid_at env) (S (next_uuid w))).
Qed.

Lemma constructed_client_ends_with_an_empty_registry_witness :
  let run := run_calls "type" "result" (Sample.env (Sample.answering Sample.result_3))
               Sample.client Sample.three_calls Sample.w1 in
  registry (snd run) = ∅
  ∧ Forall (fun m => msg_reply_to m = "uuid")
      (published (events_since Sample.w1 (snd run)))
  ∧ map msg_correlation_id (published (events_since Sample.w1 (snd run))) =
      ["uuid'"; "uuid''"; "uuid'''"].
Proof.
  apply (constructed_client_ends_with_an_empty_registry "type" "result"
           (Sample.env (Sample.answering Sample.result_3)) Sample.conf Sample.w0
           Sample.client Sample.w1 Sample.three_calls).
  vm_compute. reflexivity.
Defined.

(** ** Waiting for the result *)

(** X16. [_wait_for_result] asks the listener once, for the given id and
    with the client's timeout.  The queue's [Empty] never leaves it: a call
    still waiting when the timeout elapses gives
    [MistralException("RPC Request timeout")], and the outcome of a
    fulfilled call is handed back as it is. *)
Theorem wait_for_result_turns_empty_into_a_timeout self cid w :
  let run := _wait_for_result self cid w in
  events_since w (snd run) = [EvGetResult cid (_timeout self)]
  ∧ (∀ msg, fst run ≠ Raised (PExc "Empty" msg))
  ∧ (registry w !! cid = Some Waiting ->
     fst run = Raised (PExc "MistralException" "RPC Request timeout"))
  ∧ (∀ outcome, registry w !! cid = Some (Fulfilled outcome) ->
     fst run = Normal outcome).
Proof.
  intros run. subst run. exec.
  destruct (registry w !! cid) as [[|outcome|]|]; exec_more;
    rewrite events_since_app; repeat split; try discriminate;
    intros; simplify_eq; reflexivity.
Qed.
